(** * plotffi: the C++ wrapper of the scatter-plot renderer

    A shallow embedding of [examples/main.cpp], which carries the header-only
    wrapper [plotffi.hpp]: the exception type [PlotError], the builder-style
    [ScatterOptions] with its conversion to the C struct, and [scatterPng],
    the call wrapper that validates its vectors, calls the C entry point and
    turns a nonzero status into an exception.

    The renderer behind the C boundary ([plot_scatter_png],
    [plot_last_error_message]) is a separate library.  The wrapper is
    embedded as a program over those two calls, and is run against an
    arbitrary implementation of them.  Of the renderer itself, the Range
    Resolver and the Coordinate Mapper are modelled from their written
    contracts.  [main], the example program, is embedded with the values
    of [std::sin] and [std::rand] as parameters. *)

From Stdlib Require Import ZArith NArith QArith Qminmax Bool List String Lia Lqa.
Import ListNotations.

Local Open Scope string_scope.

(** ** Machine types *)

(** [uint32_t]: the wrapper only stores and copies such values, it does no
    arithmetic on them, so no wrap-around arises. *)
Definition uint32_t := N.

(** [size_t], the result of [std::vector::size]. *)
Definition size_t := N.

(** C [int], the status of the render call. *)
Definition int := Z.

(** [double]: the wrapper carries samples and axis bounds through untouched
    and never inspects one.  A finite value is represented by the rational
    it denotes; rounding, infinities and NaN are outside the model. *)
Definition double := Q.

(** ** The C header *)

Module plotffi_h.

(** Modelled from the spec: the C struct [PlotOptions] is declared in
    [plotffi.h], which is not among the sources.  Its fields are the ones
    [toCOptions] and [main] assign; [auto_range] is an integer flag. *)
Record PlotOptions : Type := mkPlotOptions {
  width : uint32_t;
  height : uint32_t;
  marker_radius : uint32_t;
  auto_range : int;
  x_min : double;
  x_max : double;
  y_min : double;
  y_max : double
}.

End plotffi_h.

(** ** Programs over the C boundary *)

Module plotffi.

Import plotffi_h.

(** [class PlotError : public std::runtime_error]: an exception that carries
    its message. *)
Record PlotError : Type := mkPlotError { what : string }.

(** A wrapper function either returns, throws, or calls one of the two
    functions of the C library and goes on with what the call gave back.
    [const char*] results may be null, hence the [option]. *)
Inductive ffi (A : Type) : Type :=
| Ret (a : A)
| Throw (e : PlotError)
| Call_plot_scatter_png
    (path : string) (xs ys : list double) (n : size_t) (opt : PlotOptions)
    (k : int -> ffi A)
| Call_plot_last_error_message (k : option string -> ffi A).

Arguments Ret {A} a.
Arguments Throw {A} e.
Arguments Call_plot_scatter_png {A} path xs ys n opt k.
Arguments Call_plot_last_error_message {A} k.

(** How a call of the wrapper ends. *)
Inductive outcome (A : Type) : Type :=
| Returned (a : A)
| Thrown (e : PlotError).

Arguments Returned {A} a.
Arguments Thrown {A} e.

(** What crossed the boundary, in order. *)
Inductive event : Type :=
| Ev_plot_scatter_png
    (path : string) (xs ys : list double) (n : size_t) (opt : PlotOptions)
    (result : int)
| Ev_plot_last_error_message (msg : option string).

(** An implementation of the C library over some state [W] of its own (the
    error slot, the file system). *)
Record CLibrary (W : Type) : Type := mkCLibrary {
  plot_scatter_png :
    string -> list double -> list double -> size_t -> PlotOptions ->
    W -> int * W;
  plot_last_error_message : W -> option string * W
}.

Arguments plot_scatter_png {W} c.
Arguments plot_last_error_message {W} c.

(** Running a program against a library: the events, the library's final
    state and the outcome. *)
Fixpoint run {W A : Type} (lib : CLibrary W) (p : ffi A) (w : W)
  : list event * W * outcome A :=
  match p with
  | Ret a => ([], w, Returned a)
  | Throw e => ([], w, Thrown e)
  | Call_plot_scatter_png path xs ys n opt k =>
      let '(result, w1) := plot_scatter_png lib path xs ys n opt w in
      let '(evs, w2, o) := run lib (k result) w1 in
      (Ev_plot_scatter_png path xs ys n opt result :: evs, w2, o)
  | Call_plot_last_error_message k =>
      let '(msg, w1) := plot_last_error_message lib w in
      let '(evs, w2, o) := run lib (k msg) w1 in
      (Ev_plot_last_error_message msg :: evs, w2, o)
  end.

Definition trace {W A : Type} (r : list event * W * outcome A) : list event :=
  fst (fst r).

Definition final_state {W A : Type} (r : list event * W * outcome A) : W :=
  snd (fst r).

Definition result_of {W A : Type} (r : list event * W * outcome A) : outcome A :=
  snd r.

Definition is_render_call (e : event) : bool :=
  match e with
  | Ev_plot_scatter_png _ _ _ _ _ _ => true
  | Ev_plot_last_error_message _ => false
  end.

(** The number of times [plot_scatter_png] was entered. *)
Definition render_calls (evs : list event) : nat :=
  List.length (List.filter is_render_call evs).

(** ** ScatterOptions *)

(** [struct ScatterOptions], with the default member initialisers as the
    default value. *)
Record ScatterOptions : Type := mkScatterOptions {
  width : uint32_t;
  height : uint32_t;
  markerRadius : uint32_t;
  autoRange : bool;
  xMin : double;
  xMax : double;
  yMin : double;
  yMax : double
}.

Definition default_ScatterOptions : ScatterOptions :=
  {| width := 800%N;
     height := 600%N;
     markerRadius := 5%N;
     autoRange := true;
     xMin := 0%Q;
     xMax := 1%Q;
     yMin := 0%Q;
     yMax := 1%Q |}.

(** The setters assign and return [*this]: the object after the call. *)
Definition setSize (w h : uint32_t) (s : ScatterOptions) : ScatterOptions :=
  {| width := w;
     height := h;
     markerRadius := markerRadius s;
     autoRange := autoRange s;
     xMin := xMin s; xMax := xMax s; yMin := yMin s; yMax := yMax s |}.

Definition setMarkerRadius (radius : uint32_t) (s : ScatterOptions)
  : ScatterOptions :=
  {| width := width s;
     height := height s;
     markerRadius := radius;
     autoRange := autoRange s;
     xMin := xMin s; xMax := xMax s; yMin := yMin s; yMax := yMax s |}.

Definition setAutoRange (enabled : bool) (s : ScatterOptions)
  : ScatterOptions :=
  {| width := width s;
     height := height s;
     markerRadius := markerRadius s;
     autoRange := enabled;
     xMin := xMin s; xMax := xMax s; yMin := yMin s; yMax := yMax s |}.

Definition setXRange (min max : double) (s : ScatterOptions)
  : ScatterOptions :=
  {| width := width s;
     height := height s;
     markerRadius := markerRadius s;
     autoRange := false;
     xMin := min; xMax := max; yMin := yMin s; yMax := yMax s |}.

Definition setYRange (min max : double) (s : ScatterOptions)
  : ScatterOptions :=
  {| width := width s;
     height := height s;
     markerRadius := markerRadius s;
     autoRange := false;
     xMin := xMin s; xMax := xMax s; yMin := min; yMax := max |}.

(** [toCOptions() const]: reads the object, builds the C struct. *)
Definition toCOptions (s : ScatterOptions) : PlotOptions :=
  {| plotffi_h.width := width s;
     plotffi_h.height := height s;
     marker_radius := markerRadius s;
     auto_range := if autoRange s then 1%Z else 0%Z;
     x_min := xMin s;
     x_max := xMax s;
     y_min := yMin s;
     y_max := yMax s |}.

(** ** scatterPng *)

Definition size (v : list double) : size_t := N.of_nat (List.length v).

Definition empty (v : list double) : bool := (size v =? 0)%N.

Definition msg_size_mismatch : string :=
  "X and Y coordinate vectors must have the same size".

Definition msg_zero_points : string :=
  "Cannot create scatter plot with zero points".

Definition msg_unknown : string := "Plot failed with unknown error".

Definition msg_prefix : string := "Plot failed: ".

(** The render call is handed [path] itself for [path.c_str()]; the two
    agree on every path that holds no NUL character. *)
Definition scatterPng
  (path : string) (xs ys : list double) (options : ScatterOptions)
  : ffi unit :=
  if negb (size xs =? size ys)%N then
    Throw (mkPlotError msg_size_mismatch)
  else if empty xs then
    Throw (mkPlotError msg_zero_points)
  else
    let cOpt := toCOptions options in
    Call_plot_scatter_png path xs ys (size xs) cOpt (fun result =>
      if negb (result =? 0)%Z then
        Call_plot_last_error_message (fun errorMsg =>
          match errorMsg with
          | Some m => Throw (mkPlotError (msg_prefix ++ m))
          | None => Throw (mkPlotError msg_unknown)
          end)
      else
        Ret tt).

(** The call with the default argument [options = ScatterOptions()]. *)
Definition scatterPng_default (path : string) (xs ys : list double)
  : ffi unit :=
  scatterPng path xs ys default_ScatterOptions.

(** [mentions part s]: [part] occurs in [s]. *)
Definition mentions (part s : string) : bool :=
  match String.index 0 part s with
  | Some _ => true
  | None => false
  end.

(** A library whose render call always gives the same status and whose error
    slot then holds the same message: enough to exercise each path of the
    wrapper.  Its state counts the render calls. *)
Definition fixed_library (status : int) (msg : option string) : CLibrary nat :=
  {| plot_scatter_png := fun _ _ _ _ _ calls => (status, S calls);
     plot_last_error_message := fun calls => (msg, calls) |}.

End plotffi.

(** ** The renderer behind the boundary *)

Module renderer.

Import plotffi_h.

Local Open Scope Q_scope.

(** Modelled from the spec: the error taxonomy of the renderer, which is not
    among the sources. *)
Inductive PlotFailure : Type :=
| EmptyInput
| LengthMismatch
| InvalidDimensions
| InvalidRange
| IoError
| EncodeError.

(** Modelled from the spec: the Resolved Range, the data-space rectangle the
    samples are mapped from. *)
Record ResolvedRange : Type := mkResolvedRange {
  rx_min : double;
  rx_max : double;
  ry_min : double;
  ry_max : double
}.

(** The least and the greatest of a non-empty sequence [v :: vs]. *)
Definition minimum (v : double) (vs : list double) : double :=
  fold_left Qmin vs v.

Definition maximum (v : double) (vs : list double) : double :=
  fold_left Qmax vs v.

(** Modelled from the spec: one axis of the Range Resolver under
    [auto_range], which is not among the sources.  The range runs from the
    least to the greatest sample; when the two coincide the axis is
    degenerate and is widened symmetrically by a margin.  The spec leaves
    the margin open (a fixed epsilon, a fraction of the magnitude), so it
    is a function [margin] of the common value.  Arithmetic is exact. *)
Definition resolve_axis (margin : double -> double)
  (v : double) (vs : list double) : double * double :=
  let lo := minimum v vs in
  let hi := maximum v vs in
  if Qeq_bool lo hi then (lo - margin lo, lo + margin lo) else (lo, hi).

(** Modelled from the spec: the Range Resolver, which is not among the
    sources.  With [auto_range] set, each axis is resolved from the data;
    otherwise the bounds of the options are used as they are, and a bound
    pair with [min >= max] is an [InvalidRange].  An empty Sample Set has
    no extremes: the Boundary Layer rejects it as [EmptyInput] before the
    resolver runs, and the model answers the same. *)
Definition resolve_range (margin : double -> double)
  (xs ys : list double) (opt : PlotOptions)
  : PlotFailure + ResolvedRange :=
  if negb (auto_range opt =? 0)%Z then
    match xs, ys with
    | x :: xs', y :: ys' =>
        let xr := resolve_axis margin x xs' in
        let yr := resolve_axis margin y ys' in
        inr {| rx_min := fst xr; rx_max := snd xr;
               ry_min := fst yr; ry_max := snd yr |}
    | _, _ => inl EmptyInput
    end
  else if Qle_bool (x_max opt) (x_min opt) || Qle_bool (y_max opt) (y_min opt)
  then inl InvalidRange
  else inr {| rx_min := x_min opt; rx_max := x_max opt;
              ry_min := y_min opt; ry_max := y_max opt |}.

(** Modelled from the spec: the margins the Coordinate Mapper reserves on
    each edge; the spec gives them no value. *)
Record Margins : Type := mkMargins {
  margin_left : Q;
  margin_right : Q;
  margin_top : Q;
  margin_bottom : Q
}.

(** Modelled from the spec: linear interpolation of [v] across [lo, hi] onto
    [a, b], the arithmetic of the Coordinate Mapper, which is not among the
    sources.  It divides by the span [hi - lo]; a zero span has no image. *)
Definition interpolate (v lo hi a b : Q) : option Q :=
  if Qeq_bool (hi - lo) 0 then None
  else Some (a + (v - lo) / (hi - lo) * (b - a)).

Definition pixels (n : uint32_t) : Q := inject_Z (Z.of_N n).

(** Modelled from the spec: the Coordinate Mapper, before rounding to a
    pixel: [x] goes onto [margin_left, width - margin_right], [y] onto
    [height - margin_bottom, margin_top] (rows grow downward). *)
Definition map_point (r : ResolvedRange) (m : Margins) (w h : uint32_t)
  (x y : double) : option (Q * Q) :=
  match interpolate x (rx_min r) (rx_max r)
          (margin_left m) (pixels w - margin_right m),
        interpolate y (ry_min r) (ry_max r)
          (pixels h - margin_bottom m) (margin_top m)
  with
  | Some px, Some py => Some (px, py)
  | _, _ => None
  end.

(** A sample lies in the range. *)
Definition in_range (r : ResolvedRange) (x y : double) : Prop :=
  rx_min r <= x /\ x <= rx_max r /\ ry_min r <= y /\ y <= ry_max r.


(** A fixed absolute margin. *)
Definition fixed_margin (eps : Q) : double -> double := fun _ => eps.

End renderer.

(** ** The wrapper after the render call *)

Module wrapper.

Import plotffi.

(** What [scatterPng] does with the status of the render call: the
    statements that follow the call of [plot_scatter_png]. *)
Definition after_render : int -> ffi unit :=
  fun result =>
    if negb (result =? 0)%Z then
      Call_plot_last_error_message (fun errorMsg =>
        match errorMsg with
        | Some m => Throw (mkPlotError (msg_prefix ++ m))
        | None => Throw (mkPlotError msg_unknown)
        end)
    else Ret tt.

End wrapper.

(** ** Method chains on a ScatterOptions object *)

Module chain.

Import plotffi.

(** One setter call with its arguments. *)
Inductive call : Type :=
| SetSize (w h : uint32_t)
| SetMarkerRadius (radius : uint32_t)
| SetAutoRange (enabled : bool)
| SetXRange (min max : double)
| SetYRange (min max : double).

Definition perform (c : call) (s : ScatterOptions) : ScatterOptions :=
  match c with
  | SetSize w h => setSize w h s
  | SetMarkerRadius radius => setMarkerRadius radius s
  | SetAutoRange enabled => setAutoRange enabled s
  | SetXRange min max => setXRange min max s
  | SetYRange min max => setYRange min max s
  end.

(** [opts.c1(..).c2(..)...]: every setter returns [*this], so a chain
    performs its calls on the one object, first to last. *)
Definition chained (cs : list call) (s : ScatterOptions) : ScatterOptions :=
  fold_left (fun o c => perform c o) cs s.

(** What a call writes to [autoRange], if it writes it. *)
Definition flag_written (c : call) : option bool :=
  match c with
  | SetAutoRange enabled => Some enabled
  | SetXRange _ _ | SetYRange _ _ => Some false
  | SetSize _ _ | SetMarkerRadius _ => None
  end.

(** The x bounds a call writes, if it writes them. *)
Definition x_written (c : call) : option (double * double) :=
  match c with
  | SetXRange min max => Some (min, max)
  | _ => None
  end.

(** The y bounds a call writes, if it writes them. *)
Definition y_written (c : call) : option (double * double) :=
  match c with
  | SetYRange min max => Some (min, max)
  | _ => None
  end.

End chain.

(** ** The example program *)

Module example.

Import plotffi_h plotffi.

Local Open Scope Q_scope.

(** A line feed. *)
Definition nl : string := String (Ascii.ascii_of_nat 10) EmptyString.

(** What [main] writes: one entry per output statement, the pieces of its
    [<<] chain put together. *)
Inductive output : Type :=
| Cout (text : string)
| Cerr (text : string).

(** The program's surroundings as [main] goes along: the calls that crossed
    the C boundary, what was written, and the state of the C library. *)
Record machine (W : Type) : Type := mkMachine {
  calls : list event;
  console : list output;
  lib_state : W
}.

Arguments mkMachine {W} calls console lib_state.
Arguments calls {W} m.
Arguments console {W} m.
Arguments lib_state {W} m.

Definition start {W : Type} (w : W) : machine W :=
  {| calls := []; console := []; lib_state := w |}.

(** A statement block: it ends normally or with a [PlotError] in flight. *)
Definition io (W A : Type) : Type := machine W -> outcome A * machine W.

Definition ret {W A : Type} (a : A) : io W A := fun m => (Returned a, m).

Definition bind {W A B : Type} (c : io W A) (k : A -> io W B) : io W B :=
  fun m =>
    match c m with
    | (Returned a, m1) => k a m1
    | (Thrown e, m1) => (Thrown e, m1)
    end.

Definition print {W : Type} (o : output) : io W unit :=
  fun m =>
    (Returned tt,
     {| calls := calls m; console := console m ++ [o];
        lib_state := lib_state m |}).

(** Calling into the wrapper or the C library. *)
Definition invoke {W A : Type} (lib : CLibrary W) (p : ffi A) : io W A :=
  fun m =>
    let '(evs, w1, o) := run lib p (lib_state m) in
    (o, {| calls := calls m ++ evs; console := console m; lib_state := w1 |}).

Notation "x <- c ;; k" := (bind c (fun x => k))
  (at level 61, c at next level, right associativity).
Notation "c ;;; k" := (bind c (fun _ => k))
  (at level 61, right associativity).

(** The data of the first, third and fourth example.  Decimal literals
    stand for the tenths they spell, where the program holds the nearest
    binary64 values; nothing below depends on these values. *)
Definition xs_auto : list double := [1; 2; 3; 4; 5; 6; 7; 8; 9; 10].

Definition ys_auto : list double :=
  [21#10; 39#10; 62#10; 78#10; 101#10; 12; 141#10; 159#10; 182#10; 198#10].

Definition xs_explicit : list double := [1#10; 2#10; 3#10; 4#10; 5#10].

Definition ys_explicit : list double := [1#10; 4#10; 9#10; 16#10; 25#10].

Definition xs_c_api : list double := [1; 2; 3].

Definition ys_c_api : list double := [1; 2; 3].

Definition opt_c_api : PlotOptions :=
  {| plotffi_h.width := 400%N;
     plotffi_h.height := 300%N;
     marker_radius := 6%N;
     auto_range := 1%Z;
     x_min := 0; x_max := 0; y_min := 0; y_max := 0 |}.

Section Main.

Context {W : Type}.

(** The C library the program is linked against. *)
Variable lib : CLibrary W.

(** [std::sin], and the values [std::rand] gives on its successive calls:
    both come from the C++ runtime. *)
Variable std_sin : double -> double.
Variable std_rand : nat -> Z.

(** The loop of the second example, with [n] iterations to go from [i]:
    [x = i * 0.2], [y = sin(x) + (rand() % 100 - 50) / 500.0], each pushed
    onto its vector.  [%] truncates, as in C++.  The products, quotients
    and sums are exact here where the program rounds them to binary64, so
    the values are not the program's to the last bit; what is proved of the
    loop concerns how many samples it pushes, not their values. *)
Fixpoint sine_wave (n i : nat) (xs ys : list double)
  : list double * list double :=
  match n with
  | O => (xs, ys)
  | S n' =>
      let x := inject_Z (Z.of_nat i) * (2#10) in
      let y := std_sin x
               + inject_Z (Z.rem (std_rand i) 100 - 50) / 500 in
      sine_wave n' (S i) (xs ++ [x]) (ys ++ [y])
  end.

(** The [try] block of [main]. *)
Definition main_try : io W unit :=
  (* Example 1 *)
  invoke lib (scatterPng_default "scatter_auto.png" xs_auto ys_auto) ;;;
  print (Cout ("Created scatter_auto.png (auto-range)" ++ nl)) ;;;
  (* Example 2 *)
  (let '(xs, ys) := sine_wave 50 0 [] [] in
   let opts :=
     setAutoRange true
       (setMarkerRadius 4%N (setSize 1024%N 768%N default_ScatterOptions)) in
   invoke lib (scatterPng "scatter_sine.png" xs ys opts)) ;;;
  print (Cout ("Created scatter_sine.png (sine wave)" ++ nl)) ;;;
  (* Example 3 *)
  (let opts :=
     setYRange 0 3
       (setXRange 0 1
          (setMarkerRadius 8%N (setSize 640%N 480%N default_ScatterOptions))) in
   invoke lib (scatterPng "scatter_explicit.png" xs_explicit ys_explicit opts)) ;;;
  print (Cout ("Created scatter_explicit.png (explicit range)" ++ nl)) ;;;
  (* Example 4 *)
  result <- invoke lib
    (Call_plot_scatter_png "scatter_c_api.png" xs_c_api ys_c_api
       (size xs_c_api) opt_c_api (fun r => Ret r)) ;;
  (if (result =? 0)%Z then
     print (Cout ("Created scatter_c_api.png (C API)" ++ nl))
   else
     err <- invoke lib (Call_plot_last_error_message (fun e => Ret e)) ;;
     print (Cerr ("C API error: "
                  ++ match err with Some e => e | None => "unknown" end
                  ++ nl))) ;;;
  print (Cout (nl ++ "All plots created successfully!" ++ nl)).

(** [main]: the exit code and what the program left behind.  The handler
    for [plotffi::PlotError] reports the message and gives 1.  The second
    handler, for any other [std::exception], has nothing to catch here: the
    statements of the [try] block throw nothing else but on exhausted
    memory, which is outside the model. *)
Definition main (w : W) : int * machine W :=
  match main_try (start w) with
  | (Returned _, m) => (0%Z, m)
  | (Thrown e, m) =>
      (1%Z, snd (print (Cerr ("Plot error: " ++ what e ++ nl)) m))
  end.

End Main.

(** The paths of the render calls of a trace, with their status. *)
Definition renders (evs : list event) : list (string * int) :=
  flat_map (fun e =>
    match e with
    | Ev_plot_scatter_png path _ _ _ _ result => [(path, result)]
    | Ev_plot_last_error_message _ => []
    end) evs.

Definition is_Cerr (o : output) : bool :=
  match o with Cerr _ => true | Cout _ => false end.

(** A library whose render call fails, with status 1 and the message
    "cannot write", exactly on the path [bad]. *)
Definition failing_on (bad : string) : CLibrary (option string) :=
  {| plot_scatter_png := fun path _ _ _ _ _ =>
       if String.eqb path bad then (1%Z, Some "cannot write")
       else (0%Z, None);
     plot_last_error_message := fun slot => (slot, slot) |}.

End example.

(** * Properties of the wrapper *)

Import plotffi_h plotffi.

(** ** Sanity checks on concrete inputs *)

(** The third example of [main]: 640 x 480, radius 8, explicit ranges. *)
Example main_example3_options :
  toCOptions
    (setYRange 0 3 (setXRange 0 1 (setMarkerRadius 8%N (setSize 640%N 480%N
       default_ScatterOptions))))
  = {| plotffi_h.width := 640%N; plotffi_h.height := 480%N;
       marker_radius := 8%N; auto_range := 0%Z;
       x_min := 0; x_max := 1; y_min := 0; y_max := 3 |}.
Proof. reflexivity. Qed.

Example scatterPng_success_run :
  run (fixed_library 0%Z None) (scatterPng_default "a.png" [1; 2] [3; 4]) 0%nat
  = ([Ev_plot_scatter_png "a.png" [1; 2] [3; 4] 2%N
        (toCOptions default_ScatterOptions) 0%Z],
     1%nat, Returned tt).
Proof. reflexivity. Qed.

Example scatterPng_failure_run :
  result_of
    (run (fixed_library 2%Z (Some "disk full"))
       (scatterPng_default "a.png" [1; 2] [3; 4]) 0%nat)
  = Thrown (mkPlotError "Plot failed: disk full").
Proof. reflexivity. Qed.

(** ** The two guards of [scatterPng] *)

Lemma size_eqb_length (xs ys : list double) :
  (size xs =? size ys)%N = (List.length xs =? List.length ys)%nat.
Proof.
  unfold size.
  destruct (Nat.eqb_spec (List.length xs) (List.length ys)) as [E | E].
  - rewrite E. apply N.eqb_refl.
  - apply N.eqb_neq. intro H. apply E. now apply Nat2N.inj.
Qed.

Lemma empty_nil (xs : list double) : empty xs = true <-> xs = [].
Proof.
  unfold empty, size. destruct xs as [| x xs]; simpl.
  - split; reflexivity.
  - split; intro H; discriminate H.
Qed.

Lemma empty_false (xs : list double) : xs <> [] -> empty xs = false.
Proof.
  intro H. destruct (empty xs) eqn:E; [ | reflexivity ].
  apply empty_nil in E. contradiction.
Qed.

(** Past both guards, [scatterPng] is the render call followed by the
    inspection of its status. *)
Lemma scatterPng_reaches_call
  (path : string) (xs ys : list double) (options : ScatterOptions) :
  xs <> [] -> List.length xs = List.length ys ->
  scatterPng path xs ys options
  = Call_plot_scatter_png path xs ys (size xs) (toCOptions options)
      (fun result =>
         if negb (result =? 0)%Z then
           Call_plot_last_error_message (fun errorMsg =>
             match errorMsg with
             | Some m => Throw (mkPlotError (msg_prefix ++ m))
             | None => Throw (mkPlotError msg_unknown)
             end)
         else Ret tt).
Proof.
  intros Hne Hlen. unfold scatterPng.
  rewrite size_eqb_length, Hlen, Nat.eqb_refl. simpl.
  now rewrite (empty_false xs Hne).
Qed.

Section Wrapper.

Context {W : Type}.
Variable lib : CLibrary W.
Variable w : W.
Variable path : string.
Variable options : ScatterOptions.

(** C1. With two empty vectors [scatterPng] throws the [PlotError]
    "Cannot create scatter plot with zero points": the program is that throw
    and nothing else, so against every library no call crosses the boundary
    and the library's state is left as it was. *)
Theorem scatterPng_empty_input (xs ys : list double) :
  List.length xs = 0%nat -> List.length ys = 0%nat ->
  scatterPng path xs ys options
    = Throw (mkPlotError "Cannot create scatter plot with zero points")
  /\ run lib (scatterPng path xs ys options) w
    = ([], w, Thrown (mkPlotError "Cannot create scatter plot with zero points"))
  /\ mentions "zero points" "Cannot create scatter plot with zero points" = true.
Proof.
  intros Hx Hy.
  apply length_zero_iff_nil in Hx. apply length_zero_iff_nil in Hy.
  subst xs ys. repeat split.
Qed.

(** C2. With vectors of different lengths [scatterPng] throws the
    [PlotError] "X and Y coordinate vectors must have the same size" without
    calling [plot_scatter_png]: no event occurs, the library's state is left
    as it was. *)
Theorem scatterPng_length_mismatch (xs ys : list double) :
  List.length xs <> List.length ys ->
  scatterPng path xs ys options
    = Throw (mkPlotError "X and Y coordinate vectors must have the same size")
  /\ run lib (scatterPng path xs ys options) w
    = ([], w,
       Thrown (mkPlotError "X and Y coordinate vectors must have the same size"))
  /\ render_calls (trace (run lib (scatterPng path xs ys options) w)) = 0%nat.
Proof.
  intro Hne.
  assert (E : scatterPng path xs ys options = Throw (mkPlotError msg_size_mismatch)).
  { unfold scatterPng. rewrite size_eqb_length.
    apply Nat.eqb_neq in Hne. now rewrite Hne. }
  rewrite E. repeat split.
Qed.

(** C3. With non-empty vectors of equal length, [scatterPng] calls
    [plot_scatter_png] exactly once, returns normally if and only if that
    call gave status 0, and throws a [PlotError] whenever the status is not
    0. *)
Theorem scatterPng_status_contract (xs ys : list double) :
  xs <> [] -> List.length xs = List.length ys ->
  let status :=
    fst (plot_scatter_png lib path xs ys (size xs) (toCOptions options) w) in
  let r := run lib (scatterPng path xs ys options) w in
  (result_of r = Returned tt <-> status = 0%Z)
  /\ (status <> 0%Z -> exists e : PlotError, result_of r = Thrown e)
  /\ render_calls (trace r) = 1%nat.
Proof.
  intros Hne Hlen status r. subst status r.
  rewrite (scatterPng_reaches_call path xs ys options Hne Hlen).
  cbn [run].
  destruct (plot_scatter_png lib path xs ys (size xs) (toCOptions options) w)
    as [status w1].
  cbn [fst].
  destruct (Z.eqb_spec status 0) as [E | E]; cbn [negb run].
  - repeat split; auto. intro H. contradiction.
  - destruct (plot_last_error_message lib w1) as [[m |] w2];
      cbn [run result_of trace fst snd render_calls filter is_render_call
           List.length];
      (split; [ split; [ discriminate | intro; contradiction ] | ]);
      (split; [ intros _; eexists; reflexivity | reflexivity ]).
Qed.

(** C7. When [plot_scatter_png] gives a nonzero status, [scatterPng] asks
    for the last error message: a null pointer gives the [PlotError]
    "Plot failed with unknown error", a message [m] gives "Plot failed: "
    followed by [m]. *)
Theorem scatterPng_error_message (xs ys : list double) :
  xs <> [] -> List.length xs = List.length ys ->
  let call := plot_scatter_png lib path xs ys (size xs) (toCOptions options) w in
  let msg := fst (plot_last_error_message lib (snd call)) in
  fst call <> 0%Z ->
  result_of (run lib (scatterPng path xs ys options) w)
  = Thrown (mkPlotError
      match msg with
      | None => "Plot failed with unknown error"
      | Some m => "Plot failed: " ++ m
      end).
Proof.
  intros Hne Hlen call msg Hstatus. subst call msg.
  rewrite (scatterPng_reaches_call path xs ys options Hne Hlen).
  cbn [run].
  destruct (plot_scatter_png lib path xs ys (size xs) (toCOptions options) w)
    as [status w1].
  cbn [fst snd] in *.
  apply Z.eqb_neq in Hstatus. rewrite Hstatus. cbn [negb run].
  destruct (plot_last_error_message lib w1) as [[m |] w2]; reflexivity.
Qed.

End Wrapper.

Lemma scatterPng_empty_input_witness :
  scatterPng "out.png" [] [] default_ScatterOptions
    = Throw (mkPlotError "Cannot create scatter plot with zero points")
  /\ run (fixed_library 0%Z None)
       (scatterPng "out.png" [] [] default_ScatterOptions) 0%nat
    = ([], 0%nat,
       Thrown (mkPlotError "Cannot create scatter plot with zero points"))
  /\ mentions "zero points" "Cannot create scatter plot with zero points" = true.
Proof.
  apply (scatterPng_empty_input (fixed_library 0%Z None) 0%nat "out.png"
           default_ScatterOptions [] []); reflexivity.
Defined.

Lemma scatterPng_length_mismatch_witness :
  scatterPng "out.png" [1; 2; 3] [1; 2] default_ScatterOptions
    = Throw (mkPlotError "X and Y coordinate vectors must have the same size")
  /\ run (fixed_library 0%Z None)
       (scatterPng "out.png" [1; 2; 3] [1; 2] default_ScatterOptions) 0%nat
    = ([], 0%nat,
       Thrown (mkPlotError "X and Y coordinate vectors must have the same size"))
  /\ render_calls
       (trace (run (fixed_library 0%Z None)
                 (scatterPng "out.png" [1; 2; 3] [1; 2] default_ScatterOptions)
                 0%nat)) = 0%nat.
Proof.
  apply (scatterPng_length_mismatch (fixed_library 0%Z None) 0%nat "out.png"
           default_ScatterOptions [1; 2; 3] [1; 2]).
  simpl. lia.
Defined.

Lemma scatterPng_status_contract_witness :
  let r := run (fixed_library 7%Z (Some "cannot write"))
             (scatterPng "out.png" [1; 2; 3] [1; 4; 9] default_ScatterOptions)
             0%nat in
  (result_of r = Returned tt <-> 7%Z = 0%Z)
  /\ (7%Z <> 0%Z -> exists e : PlotError, result_of r = Thrown e)
  /\ render_calls (trace r) = 1%nat.
Proof.
  apply (scatterPng_status_contract (fixed_library 7%Z (Some "cannot write"))
           0%nat "out.png" default_ScatterOptions [1; 2; 3] [1; 4; 9]).
  - discriminate.
  - reflexivity.
Defined.

Lemma scatterPng_error_message_witness :
  result_of
    (run (fixed_library 7%Z None)
       (scatterPng "out.png" [1; 2; 3] [1; 4; 9] default_ScatterOptions) 0%nat)
  = Thrown (mkPlotError "Plot failed with unknown error").
Proof.
  apply (scatterPng_error_message (fixed_library 7%Z None) 0%nat "out.png"
           default_ScatterOptions [1; 2; 3] [1; 4; 9]).
  - discriminate.
  - reflexivity.
  - simpl. discriminate.
Defined.

(** ** ScatterOptions *)

(** C4. A default-constructed [ScatterOptions] holds width 800, height 600,
    marker radius 5, auto-range on, and the unit square as the explicit
    range: x from 0.0 to 1.0, y from 0.0 to 1.0. *)
Theorem default_ScatterOptions_fields :
  width default_ScatterOptions = 800%N
  /\ height default_ScatterOptions = 600%N
  /\ markerRadius default_ScatterOptions = 5%N
  /\ autoRange default_ScatterOptions = true
  /\ xMin default_ScatterOptions = 0
  /\ xMax default_ScatterOptions = 1
  /\ yMin default_ScatterOptions = 0
  /\ yMax default_ScatterOptions = 1.
Proof. repeat split. Qed.

(** C8. [setXRange] sets [xMin] and [xMax], switches [autoRange] off and
    leaves the five other fields as they were; [setYRange] does the same for
    the y bounds.  [setSize] changes only [width] and [height],
    [setMarkerRadius] only [markerRadius], [setAutoRange] only
    [autoRange]. *)
Theorem setters_frame
  (s : ScatterOptions) (w h radius : uint32_t) (enabled : bool)
  (min max : double) :
  setXRange min max s
    = {| width := width s; height := height s;
         markerRadius := markerRadius s; autoRange := false;
         xMin := min; xMax := max; yMin := yMin s; yMax := yMax s |}
  /\ setYRange min max s
    = {| width := width s; height := height s;
         markerRadius := markerRadius s; autoRange := false;
         xMin := xMin s; xMax := xMax s; yMin := min; yMax := max |}
  /\ setSize w h s
    = {| width := w; height := h;
         markerRadius := markerRadius s; autoRange := autoRange s;
         xMin := xMin s; xMax := xMax s; yMin := yMin s; yMax := yMax s |}
  /\ setMarkerRadius radius s
    = {| width := width s; height := height s;
         markerRadius := radius; autoRange := autoRange s;
         xMin := xMin s; xMax := xMax s; yMin := yMin s; yMax := yMax s |}
  /\ setAutoRange enabled s
    = {| width := width s; height := height s;
         markerRadius := markerRadius s; autoRange := enabled;
         xMin := xMin s; xMax := xMax s; yMin := yMin s; yMax := yMax s |}.
Proof. repeat split. Qed.

(** C9. [toCOptions] copies width, height, marker radius and the four
    bounds unchanged, and turns [autoRange] into the integer 1 when it is
    true and 0 when it is false, so [auto_range] is 1 exactly when
    [autoRange] is true.  It is a function of the object alone, which it
    reads and does not change. *)
Theorem toCOptions_fields (s : ScatterOptions) :
  plotffi_h.width (toCOptions s) = width s
  /\ plotffi_h.height (toCOptions s) = height s
  /\ marker_radius (toCOptions s) = markerRadius s
  /\ x_min (toCOptions s) = xMin s
  /\ x_max (toCOptions s) = xMax s
  /\ y_min (toCOptions s) = yMin s
  /\ y_max (toCOptions s) = yMax s
  /\ (auto_range (toCOptions s) = 1%Z <-> autoRange s = true)
  /\ (auto_range (toCOptions s) = 0%Z <-> autoRange s = false)
  /\ (auto_range (toCOptions s) = 1%Z \/ auto_range (toCOptions s) = 0%Z).
Proof.
  repeat split; simpl; destruct (autoRange s); try tauto; try discriminate.
Qed.

(** C10. No setter rejects a value: a zero width or height and bounds with
    [min >= max] are stored like any others, and [scatterPng] hands whatever
    the options hold to [plot_scatter_png], its first action on non-empty
    vectors of equal length.  The wrapper validates nothing about sizes or
    ranges. *)
Theorem setters_accept_everything
  (s : ScatterOptions) (w h radius : uint32_t) (x0 x1 y0 y1 : double)
  (path : string) (xs ys : list double) :
  xs <> [] -> List.length xs = List.length ys ->
  let o := setYRange y0 y1 (setXRange x0 x1
             (setMarkerRadius radius (setSize w h s))) in
  width o = w /\ height o = h /\ markerRadius o = radius
  /\ xMin o = x0 /\ xMax o = x1 /\ yMin o = y0 /\ yMax o = y1
  /\ exists k,
       scatterPng path xs ys o
       = Call_plot_scatter_png path xs ys (size xs)
           {| plotffi_h.width := w; plotffi_h.height := h;
              marker_radius := radius; auto_range := 0%Z;
              x_min := x0; x_max := x1; y_min := y0; y_max := y1 |} k.
Proof.
  intros Hne Hlen o. repeat split.
  rewrite (scatterPng_reaches_call path xs ys o Hne Hlen).
  eexists. reflexivity.
Qed.

Lemma setters_accept_everything_witness :
  let o := setYRange 2 2 (setXRange 1 0
             (setMarkerRadius 0%N (setSize 0%N 0%N default_ScatterOptions))) in
  width o = 0%N /\ height o = 0%N /\ markerRadius o = 0%N
  /\ xMin o = 1 /\ xMax o = 0 /\ yMin o = 2 /\ yMax o = 2
  /\ exists k,
       scatterPng "out.png" [1] [1] o
       = Call_plot_scatter_png "out.png" [1] [1] (size [1])
           {| plotffi_h.width := 0%N; plotffi_h.height := 0%N;
              marker_radius := 0%N; auto_range := 0%Z;
              x_min := 1; x_max := 0; y_min := 2; y_max := 2 |} k.
Proof.
  apply (setters_accept_everything default_ScatterOptions 0%N 0%N 0%N 1 0 2 2
           "out.png" [1] [1]).
  - discriminate.
  - reflexivity.
Defined.

(** * Properties of the renderer *)

Import renderer.

Local Open Scope Q_scope.

(** ** Sanity checks on concrete inputs *)

Example resolve_range_plain :
  resolve_range (fixed_margin (1#2)) [1; 2; 3] [1; 4; 9]
    (toCOptions default_ScatterOptions)
  = inr {| rx_min := 1; rx_max := 3; ry_min := 1; ry_max := 9 |}.
Proof. reflexivity. Qed.

Example resolve_range_explicit :
  resolve_range (fixed_margin (1#2)) [1; 2; 3] [1; 4; 9]
    (toCOptions (setYRange 0 3 (setXRange 0 1 default_ScatterOptions)))
  = inr {| rx_min := 0; rx_max := 1; ry_min := 0; ry_max := 3 |}.
Proof. reflexivity. Qed.

Example resolve_range_invalid :
  resolve_range (fixed_margin (1#2)) [1; 2; 3] [1; 4; 9]
    (toCOptions (setXRange 1 1 default_ScatterOptions))
  = inl InvalidRange.
Proof. reflexivity. Qed.

Example interpolate_zero_span : interpolate 5 5 5 0 800 = None.
Proof. reflexivity. Qed.

(** Samples 5, 5, 5 against 1, 2, 3 on an 800 x 600 image: the middle
    sample lands at the centre of the drawable region. *)
Example map_point_degenerate_axis :
  exists p,
    map_point {| rx_min := 9#2; rx_max := 11#2; ry_min := 1; ry_max := 3 |}
      (mkMargins 40 20 20 40) 800%N 600%N 5 2 = Some p
    /\ fst p == 410 /\ snd p == 290.
Proof. eexists. split; [ reflexivity | split; reflexivity ]. Qed.

(** ** Least and greatest sample *)











(** ** One axis of the Range Resolver *)

Section Axis.

Variable margin : double -> double.
Hypothesis margin_positive : forall v, 0 < margin v.





End Axis.

(** ** The linear map *)




(** ** The Range Resolver under auto-range *)





(** * Further properties of the wrapper *)

(** ** The three ways through [scatterPng] *)

Import wrapper.

Lemma scatterPng_cases
  (path : string) (xs ys : list double) (options : ScatterOptions) :
  (List.length xs <> List.length ys
   /\ scatterPng path xs ys options = Throw (mkPlotError msg_size_mismatch))
  \/ (xs = [] /\ ys = []
      /\ scatterPng path xs ys options = Throw (mkPlotError msg_zero_points))
  \/ (xs <> [] /\ List.length xs = List.length ys
      /\ scatterPng path xs ys options
         = Call_plot_scatter_png path xs ys (size xs) (toCOptions options)
             after_render).
Proof.
  destruct (Nat.eq_dec (List.length xs) (List.length ys)) as [E | E].
  - right. destruct xs as [| x xs].
    + left. destruct ys; [ | discriminate E ]. repeat split.
    + right. split; [ discriminate | ]. split; [ exact E | ].
      apply scatterPng_reaches_call; [ discriminate | exact E ].
  - left. split; [ exact E | ].
    unfold scatterPng. rewrite size_eqb_length.
    apply Nat.eqb_neq in E. now rewrite E.
Qed.

(** X1. The size check comes first: [scatterPng] throws the size-mismatch
    error exactly when the lengths differ, also when one vector is empty,
    and the zero-points error exactly when both vectors are empty. *)
Theorem scatterPng_guard_order
  (path : string) (xs ys : list double) (options : ScatterOptions) :
  (scatterPng path xs ys options
     = Throw (mkPlotError "X and Y coordinate vectors must have the same size")
   <-> List.length xs <> List.length ys)
  /\ (scatterPng path xs ys options
        = Throw (mkPlotError "Cannot create scatter plot with zero points")
      <-> xs = [] /\ ys = []).
Proof.
  destruct (scatterPng_cases path xs ys options)
    as [[Hlen E] | [(Hx & Hy & E) | (Hne & Hlen & E)]]; rewrite E.
  - split; split; intro H.
    + exact Hlen.
    + reflexivity.
    + discriminate H.
    + destruct H as [-> ->]. now elim Hlen.
  - subst xs ys. split; split; intro H.
    + discriminate H.
    + now elim H.
    + split; reflexivity.
    + reflexivity.
  - split; split; intro H.
    + discriminate H.
    + contradiction.
    + discriminate H.
    + destruct H as [H _]. contradiction.
Qed.

Section WrapperTrace.

Context {W : Type}.
Variable lib : CLibrary W.
Variable w : W.
Variable path : string.
Variable xs ys : list double.
Variable options : ScatterOptions.

(** X2. Whatever the vectors, a call of [scatterPng] crosses the boundary
    in one of three ways: not at all, throwing; one render call with status
    0, returning, the library left as that call left it; or one render call
    with a nonzero status followed at once by one reading of the last error
    message, throwing.  The error message is never read after a success and
    the render call is never repeated. *)
Theorem scatterPng_trace_shape :
  let r := run lib (scatterPng path xs ys options) w in
  (trace r = [] /\ final_state r = w /\ exists e, result_of r = Thrown e)
  \/ (exists w1,
        plot_scatter_png lib path xs ys (size xs) (toCOptions options) w
          = (0%Z, w1)
        /\ trace r
           = [Ev_plot_scatter_png path xs ys (size xs) (toCOptions options) 0%Z]
        /\ final_state r = w1
        /\ result_of r = Returned tt)
  \/ (exists status w1 msg w2,
        status <> 0%Z
        /\ plot_scatter_png lib path xs ys (size xs) (toCOptions options) w
           = (status, w1)
        /\ plot_last_error_message lib w1 = (msg, w2)
        /\ trace r
           = [Ev_plot_scatter_png path xs ys (size xs) (toCOptions options)
                status;
              Ev_plot_last_error_message msg]
        /\ final_state r = w2
        /\ exists e, result_of r = Thrown e).
Proof.
  intro r. subst r.
  destruct (scatterPng_cases path xs ys options)
    as [[Hlen E] | [(Hx & Hy & E) | (Hne & Hlen & E)]]; rewrite E.
  - left. repeat split. eexists. reflexivity.
  - left. repeat split. eexists. reflexivity.
  - right. cbn [run].
    destruct (plot_scatter_png lib path xs ys (size xs) (toCOptions options) w)
      as [status w1].
    unfold after_render.
    destruct (Z.eqb_spec status 0) as [-> | Hs]; cbn [negb run].
    + left. exists w1. repeat split.
    + right. destruct (plot_last_error_message lib w1) as [msg w2] eqn:Em.
      exists status, w1, msg, w2.
      destruct msg as [m |]; cbn [run]; repeat split; auto;
        eexists; reflexivity.
Qed.

(** X3. Every render call [scatterPng] makes is given the caller's two
    vectors, the converted options, and a count that is the length of both
    vectors and is not zero: the library is never told to read past the end
    of either buffer.  (Nothing is said of the path argument.) *)
Theorem scatterPng_call_arguments (ev : event) :
  In ev (trace (run lib (scatterPng path xs ys options) w)) ->
  is_render_call ev = true ->
  (exists p status,
     ev = Ev_plot_scatter_png p xs ys (N.of_nat (List.length xs))
            (toCOptions options) status)
  /\ List.length xs = List.length ys
  /\ (0 < List.length xs)%nat.
Proof.
  destruct (scatterPng_cases path xs ys options)
    as [[Hlen E] | [(Hx & Hy & E) | (Hne & Hlen & E)]]; rewrite E.
  - intros [].
  - intros [].
  - cbn [run].
    destruct (plot_scatter_png lib path xs ys (size xs) (toCOptions options) w)
      as [status w1].
    assert (Hpos : (0 < List.length xs)%nat).
    { destruct xs; [ contradiction | simpl; lia ]. }
    destruct (run lib (after_render status) w1) as [[evs w2] o] eqn:Er.
    cbn [trace fst]. intros [<- | Hin] Hr.
    + split; [ | split; assumption ]. exists path, status. reflexivity.
    + exfalso. unfold after_render in Er.
      destruct (negb (status =? 0)%Z).
      * cbn [run] in Er.
        destruct (plot_last_error_message lib w1) as [[m |] w3];
          cbn [run] in Er; injection Er as <- _ _;
          destruct Hin as [<- | []]; discriminate Hr.
      * cbn [run] in Er. injection Er as <- _ _. destruct Hin.
Qed.

(** X4. A [PlotError] thrown by [scatterPng] never has an empty message,
    and its message starts with "Plot failed" exactly when the renderer was
    called: the two argument checks of the wrapper are told apart from
    failures of the rendering by the text alone. *)
Theorem scatterPng_error_origin (e : PlotError) :
  let r := run lib (scatterPng path xs ys options) w in
  result_of r = Thrown e ->
  what e <> ""
  /\ ((exists rest, what e = "Plot failed" ++ rest)
      <-> render_calls (trace r) = 1%nat).
Proof.
  intros r. subst r.
  destruct (scatterPng_cases path xs ys options)
    as [[Hlen E] | [(Hx & Hy & E) | (Hne & Hlen & E)]]; rewrite E.
  - cbn. intro H. injection H as <-. split; [ discriminate | ].
    split; [ intros [rest H]; discriminate H | discriminate ].
  - cbn. intro H. injection H as <-. split; [ discriminate | ].
    split; [ intros [rest H]; discriminate H | discriminate ].
  - cbn [run].
    destruct (plot_scatter_png lib path xs ys (size xs) (toCOptions options) w)
      as [status w1].
    unfold after_render.
    destruct (negb (status =? 0)%Z); cbn [run].
    + destruct (plot_last_error_message lib w1) as [[m |] w2];
        cbn; intro H; injection H as <-;
        (split; [ discriminate | ]);
        (split; [ reflexivity | intros _ ]).
      * exists (": " ++ m). reflexivity.
      * exists " with unknown error". reflexivity.
    + cbn. discriminate.
Qed.

End WrapperTrace.

(** * Further properties of ScatterOptions *)

(** X5. [toCOptions] loses nothing: two option objects that convert to the
    same C struct are the same object. *)
Theorem toCOptions_injective (s1 s2 : ScatterOptions) :
  toCOptions s1 = toCOptions s2 -> s1 = s2.
Proof.
  destruct s1 as [w1 h1 r1 a1 x1 X1 y1 Y1], s2 as [w2 h2 r2 a2 x2 X2 y2 Y2].
  unfold toCOptions. cbn. intro H. injection H as -> -> -> Ha -> -> -> ->.
  destruct a1, a2; try reflexivity; discriminate Ha.
Qed.

Lemma toCOptions_injective_witness :
  setSize 800%N 600%N default_ScatterOptions = default_ScatterOptions.
Proof.
  apply (toCOptions_injective (setSize 800%N 600%N default_ScatterOptions)
           default_ScatterOptions).
  reflexivity.
Defined.

Import chain.

Lemma chained_app (cs1 cs2 : list call) (s : ScatterOptions) :
  chained (cs1 ++ cs2) s = chained cs2 (chained cs1 s).
Proof. unfold chained. apply fold_left_app. Qed.

Lemma chained_cons (c : call) (cs : list call) (s : ScatterOptions) :
  chained (c :: cs) s = chained cs (perform c s).
Proof. reflexivity. Qed.

Lemma chained_keeps_flag (cs : list call) :
  Forall (fun c => flag_written c = None) cs ->
  forall s, autoRange (chained cs s) = autoRange s.
Proof.
  induction 1 as [| c cs Hc _ IH]; intro s; [ reflexivity | ].
  rewrite chained_cons, IH.
  destruct c; try discriminate Hc; reflexivity.
Qed.

Lemma chained_keeps_x (cs : list call) :
  Forall (fun c => x_written c = None) cs ->
  forall s, xMin (chained cs s) = xMin s /\ xMax (chained cs s) = xMax s.
Proof.
  induction 1 as [| c cs Hc _ IH]; intro s; [ split; reflexivity | ].
  rewrite chained_cons. destruct (IH (perform c s)) as [-> ->].
  destruct c; try discriminate Hc; split; reflexivity.
Qed.

Lemma chained_keeps_y (cs : list call) :
  Forall (fun c => y_written c = None) cs ->
  forall s, yMin (chained cs s) = yMin s /\ yMax (chained cs s) = yMax s.
Proof.
  induction 1 as [| c cs Hc _ IH]; intro s; [ split; reflexivity | ].
  rewrite chained_cons. destruct (IH (perform c s)) as [-> ->].
  destruct c; try discriminate Hc; split; reflexivity.
Qed.

(** X6. In a method chain the last call that writes [autoRange] decides it:
    [setAutoRange(e)] leaves [e], [setXRange] and [setYRange] leave false,
    and the sizes set afterwards do not matter.  So auto-ranging is on after
    a chain only if [setAutoRange(true)] comes after every range setter,
    and the C struct carries the flag accordingly. *)
Theorem chained_flag_last_writer
  (before after : list call) (c : call) (b : bool) (s : ScatterOptions) :
  flag_written c = Some b ->
  Forall (fun c' => flag_written c' = None) after ->
  autoRange (chained (before ++ c :: after) s) = b
  /\ auto_range (toCOptions (chained (before ++ c :: after) s))
     = (if b then 1%Z else 0%Z).
Proof.
  intros Hc Hafter.
  assert (E : autoRange (chained (before ++ c :: after) s) = b).
  { rewrite chained_app, chained_cons, (chained_keeps_flag after Hafter).
    destruct c; try discriminate Hc; injection Hc as <-; reflexivity. }
  split; [ exact E | ]. cbn. now rewrite E.
Qed.

Lemma chained_flag_last_writer_witness :
  autoRange
    (chained ([SetAutoRange true] ++ SetXRange 0 1 :: [SetSize 640%N 480%N])
       default_ScatterOptions) = false
  /\ auto_range
       (toCOptions
          (chained ([SetAutoRange true] ++ SetXRange 0 1 :: [SetSize 640%N 480%N])
             default_ScatterOptions))
     = 0%Z.
Proof.
  apply (chained_flag_last_writer [SetAutoRange true] [SetSize 640%N 480%N]
           (SetXRange 0 1) false default_ScatterOptions).
  - reflexivity.
  - repeat constructor.
Defined.

(** X7. Explicit bounds outlive the flag: once [setXRange(a, b)] was called,
    [xMin] and [xMax] stay [a] and [b] through every later call that is not
    another [setXRange], [setAutoRange] included, which switches
    auto-ranging without clearing or restoring any bound; likewise for
    [setYRange].  The C struct receives the bounds whatever the flag. *)
Theorem chained_bounds_last_writer
  (before after : list call) (min max : double) (s : ScatterOptions) :
  (Forall (fun c' => x_written c' = None) after ->
   let o := chained (before ++ SetXRange min max :: after) s in
   xMin o = min /\ xMax o = max
   /\ x_min (toCOptions o) = min /\ x_max (toCOptions o) = max)
  /\ (Forall (fun c' => y_written c' = None) after ->
      let o := chained (before ++ SetYRange min max :: after) s in
      yMin o = min /\ yMax o = max
      /\ y_min (toCOptions o) = min /\ y_max (toCOptions o) = max).
Proof.
  split; intros Hafter o; subst o; rewrite chained_app, chained_cons.
  - destruct (chained_keeps_x after Hafter
                (perform (SetXRange min max) (chained before s))) as [E1 E2].
    cbn [toCOptions x_min x_max]. rewrite E1, E2. repeat split.
  - destruct (chained_keeps_y after Hafter
                (perform (SetYRange min max) (chained before s))) as [E1 E2].
    cbn [toCOptions y_min y_max]. rewrite E1, E2. repeat split.
Qed.

(** * Properties of the example program *)

Import example.

Local Open Scope Q_scope.

(** ** Sanity checks on concrete runs *)

(** Only the direct call of the C API fails: its error is written, and the
    program still ends with the success line and exit code 0. *)
Example main_c_api_failure :
  let '(code, m) :=
    main (failing_on "scatter_c_api.png") (fun x => x) (fun _ => 7%Z) None in
  code = 0%Z
  /\ skipn 3 (console m)
     = [Cerr ("C API error: cannot write" ++ nl);
        Cout (nl ++ "All plots created successfully!" ++ nl)].
Proof. vm_compute. split; reflexivity. Qed.

(** The second plot fails: the third and the fourth are not attempted. *)
Example main_second_plot_fails :
  let '(code, m) :=
    main (failing_on "scatter_sine.png") (fun x => x) (fun _ => 7%Z) None in
  code = 1%Z
  /\ renders (calls m) = [("scatter_auto.png", 0%Z); ("scatter_sine.png", 1%Z)]
  /\ console m
     = [Cout ("Created scatter_auto.png (auto-range)" ++ nl);
        Cerr ("Plot error: Plot failed: cannot write" ++ nl)].
Proof. vm_compute. repeat split. Qed.

(** ** The loop of the second example *)

Section Loop.

Variable std_sin : double -> double.
Variable std_rand : nat -> Z.

(** The loop is a map over the indices it runs through. *)
Lemma sine_wave_map (n : nat) :
  forall (i : nat) (xs ys : list double),
    sine_wave std_sin std_rand n i xs ys
    = ((xs ++ map (fun k => inject_Z (Z.of_nat k) * (2#10)) (seq i n))%list,
       (ys ++ map (fun k =>
                     std_sin (inject_Z (Z.of_nat k) * (2#10))
                     + inject_Z (Z.rem (std_rand k) 100 - 50) / 500)
                (seq i n))%list).
Proof.
  induction n as [| n IH]; intros i xs ys.
  - cbn [sine_wave seq map]. now rewrite !app_nil_r.
  - cbn [sine_wave seq map]. rewrite IH, <- !app_assoc. reflexivity.
Qed.

(** Started on empty vectors, the loop yields [n] samples on each side. *)
Lemma sine_wave_from_empty (n : nat) :
  List.length (fst (sine_wave std_sin std_rand n 0 [] [])) = n
  /\ List.length (snd (sine_wave std_sin std_rand n 0 [] [])) = n.
Proof.
  rewrite sine_wave_map. cbn [fst snd app].
  rewrite !length_map, length_seq. split; reflexivity.
Qed.

(** X8. The loop of the second example pushes one sample onto each vector
    per iteration, so after [n] iterations both vectors have grown by [n]:
    started on two empty vectors it yields vectors of equal length [n],
    whatever [sin] and [rand] give. *)
Theorem sine_wave_lengths (n i : nat) (xs ys : list double) :
  List.length (fst (sine_wave std_sin std_rand n i xs ys))
    = (List.length xs + n)%nat
  /\ List.length (snd (sine_wave std_sin std_rand n i xs ys))
    = (List.length ys + n)%nat.
Proof.
  rewrite sine_wave_map. cbn [fst snd].
  rewrite !length_app, !length_map, length_seq. split; reflexivity.
Qed.

End Loop.

(** ** The run of [main] *)

Section MainRun.

Context {W : Type}.
Variable lib : CLibrary W.
Variable std_sin : double -> double.
Variable std_rand : nat -> Z.

(** A call of the wrapper on well-formed vectors, seen from [main]. *)
Lemma invoke_scatterPng
  (path : string) (xs ys : list double) (options : ScatterOptions)
  (m : machine W) :
  xs <> [] -> List.length xs = List.length ys ->
  exists status w1,
    plot_scatter_png lib path xs ys (size xs) (toCOptions options) (lib_state m)
      = (status, w1)
    /\ ((status = 0%Z
         /\ invoke lib (scatterPng path xs ys options) m
            = (Returned tt,
               {| calls := (calls m ++ [Ev_plot_scatter_png path xs ys (size xs)
                                         (toCOptions options) 0%Z])%list;
                  console := console m;
                  lib_state := w1 |}))
        \/ (status <> 0%Z
            /\ exists msg w2 rest,
                 invoke lib (scatterPng path xs ys options) m
                 = (Thrown (mkPlotError ("Plot failed" ++ rest)),
                    {| calls := (calls m ++ [Ev_plot_scatter_png path xs ys
                                              (size xs) (toCOptions options)
                                              status;
                                            Ev_plot_last_error_message msg])%list;
                       console := console m;
                       lib_state := w2 |}))).
Proof.
  intros Hne Hlen. unfold invoke.
  rewrite (scatterPng_reaches_call path xs ys options Hne Hlen). cbn [run].
  destruct (plot_scatter_png lib path xs ys (size xs) (toCOptions options)
              (lib_state m)) as [status w1].
  exists status, w1. split; [ reflexivity | ].
  destruct (Z.eqb_spec status 0) as [-> | Hs]; cbn [negb run].
  - left. split; reflexivity.
  - right. split; [ exact Hs | ].
    destruct (plot_last_error_message lib w1) as [[t |] w2]; cbn [run].
    + exists (Some t), w2, (": " ++ t). reflexivity.
    + exists None, w2, " with unknown error". reflexivity.
Qed.

(** Every run of [main] is one of four: the first, second or third plot
    fails and the program stops there with code 1, or all three succeed and
    the program goes through the fourth to code 0. *)
Lemma main_cases (w : W) (code : int) (m : machine W) :
  main lib std_sin std_rand w = (code, m) ->
  let created1 := Cout ("Created scatter_auto.png (auto-range)" ++ nl) in
  let created2 := Cout ("Created scatter_sine.png (sine wave)" ++ nl) in
  let created3 := Cout ("Created scatter_explicit.png (explicit range)" ++ nl) in
  (exists r rest,
     r <> 0%Z /\ code = 1%Z
     /\ renders (calls m) = [("scatter_auto.png", r)]
     /\ console m = [Cerr ("Plot error: Plot failed" ++ rest ++ nl)])
  \/ (exists r rest,
        r <> 0%Z /\ code = 1%Z
        /\ renders (calls m)
           = [("scatter_auto.png", 0%Z); ("scatter_sine.png", r)]
        /\ console m
           = [created1; Cerr ("Plot error: Plot failed" ++ rest ++ nl)])
  \/ (exists r rest,
        r <> 0%Z /\ code = 1%Z
        /\ renders (calls m)
           = [("scatter_auto.png", 0%Z); ("scatter_sine.png", 0%Z);
              ("scatter_explicit.png", r)]
        /\ console m
           = [created1; created2;
              Cerr ("Plot error: Plot failed" ++ rest ++ nl)])
  \/ (exists r line,
        code = 0%Z
        /\ renders (calls m)
           = [("scatter_auto.png", 0%Z); ("scatter_sine.png", 0%Z);
              ("scatter_explicit.png", 0%Z); ("scatter_c_api.png", r)]
        /\ console m
           = [created1; created2; created3; line;
              Cout (nl ++ "All plots created successfully!" ++ nl)]
        /\ (r = 0%Z -> line = Cout ("Created scatter_c_api.png (C API)" ++ nl))
        /\ (r <> 0%Z -> exists text, line = Cerr ("C API error: " ++ text))).
Proof.
  unfold main, main_try.
  destruct (sine_wave std_sin std_rand 50 0 [] []) as [xs2 ys2] eqn:Esw.
  destruct (sine_wave_from_empty std_sin std_rand 50) as [Lx Ly].
  rewrite Esw in Lx, Ly. cbn [fst snd] in Lx, Ly.
  assert (Hne2 : xs2 <> []) by (intros ->; discriminate Lx).
  assert (Hlen2 : List.length xs2 = List.length ys2) by congruence.
  assert (Hne1 : xs_auto <> []) by discriminate.
  assert (Hlen1 : List.length xs_auto = List.length ys_auto) by reflexivity.
  assert (Hne3 : xs_explicit <> []) by discriminate.
  assert (Hlen3 : List.length xs_explicit = List.length ys_explicit)
    by reflexivity.
  unfold scatterPng_default, bind at 1.
  destruct (invoke_scatterPng "scatter_auto.png" xs_auto ys_auto
              default_ScatterOptions (start w) Hne1 Hlen1)
    as (r1 & w1 & _ & [[-> E1] | [Hr1 (msg1 & w1' & rest1 & E1)]]);
    rewrite E1; clear E1.
  2:{ intro H. injection H as <- <-. left. exists r1, rest1. cbn.
      repeat split; auto. }
  unfold bind at 1, print at 1. unfold bind at 1.
  match goal with
  | |- context [invoke lib (scatterPng "scatter_sine.png" xs2 ys2 ?o) ?mm] =>
      destruct (invoke_scatterPng "scatter_sine.png" xs2 ys2 o mm Hne2 Hlen2)
        as (r2 & w2 & _ & [[-> E2] | [Hr2 (msg2 & w2' & rest2 & E2)]]);
      rewrite E2; clear E2
  end.
  2:{ intro H. injection H as <- <-. right. left. exists r2, rest2. cbn.
      unfold renders. rewrite ?flat_map_app. cbn.
      repeat split; auto. }
  unfold bind at 1, print at 1. unfold bind at 1.
  match goal with
  | |- context [invoke lib (scatterPng "scatter_explicit.png" ?xs ?ys ?o) ?mm] =>
      destruct (invoke_scatterPng "scatter_explicit.png" xs ys o mm Hne3 Hlen3)
        as (r3 & w3 & _ & [[-> E3] | [Hr3 (msg3 & w3' & rest3 & E3)]]);
      rewrite E3; clear E3
  end.
  2:{ intro H. injection H as <- <-. right. right. left.
      exists r3, rest3. cbn.
      unfold renders. rewrite ?flat_map_app. cbn.
      repeat split; auto. }
  unfold bind, print, invoke. cbn [run lib_state calls console].
  destruct (plot_scatter_png lib "scatter_c_api.png" xs_c_api ys_c_api
              (size xs_c_api) opt_c_api w3) as [r4 w4].
  cbn [run].
  destruct (Z.eqb_spec r4 0) as [-> | Hr4].
  - intro H. injection H as <- <-.
    do 3 right. eexists 0%Z, _. cbn. unfold renders. rewrite ?flat_map_app. cbn.
    repeat split. intro H. now elim H.
  - cbn. destruct (plot_last_error_message lib w4) as [err w5].
    cbn. intro H. injection H as <- <-.
    do 3 right. exists r4. eexists. cbn.
    unfold renders. rewrite ?flat_map_app. cbn.
    repeat split; try (intro; contradiction).
    intros _. eexists. reflexivity.
Qed.

(** X10. [main] returns 0 or 1, and returns 0 exactly when the three plots
    made through the wrapper succeeded; the status of the fourth call, made
    on the C API directly, does not enter the exit code. *)
Theorem main_exit_code (w : W) :
  let code := fst (main lib std_sin std_rand w) in
  let m := snd (main lib std_sin std_rand w) in
  (code = 0%Z \/ code = 1%Z)
  /\ (code = 0%Z <->
      exists r4,
        renders (calls m)
        = [("scatter_auto.png", 0%Z); ("scatter_sine.png", 0%Z);
           ("scatter_explicit.png", 0%Z); ("scatter_c_api.png", r4)]).
Proof.
  intros code m. subst code m.
  destruct (main lib std_sin std_rand w) as [code m] eqn:E.
  apply main_cases in E. cbn [fst snd].
  destruct E as [(r & rest & Hr & -> & Er & _)
              | [(r & rest & Hr & -> & Er & _)
              | [(r & rest & Hr & -> & Er & _)
              | (r & line & -> & Er & _)]]]; rewrite Er.
  - split; [ now right | ]. split; [ discriminate | ].
    intros [r4 H]. discriminate H.
  - split; [ now right | ]. split; [ discriminate | ].
    intros [r4 H]. discriminate H.
  - split; [ now right | ]. split; [ discriminate | ].
    intros [r4 H]. discriminate H.
  - split; [ now left | ]. split; [ | reflexivity ].
    intros _. exists r. reflexivity.
Qed.

(** X11. [main] stops at the first failure: the render calls it makes are
    the four plots in program order up to some point, and every call but
    the last one returned 0. *)
Theorem main_fail_fast (w : W) :
  let rs := renders (calls (snd (main lib std_sin std_rand w))) in
  map fst rs
  = firstn (List.length rs)
      ["scatter_auto.png"; "scatter_sine.png"; "scatter_explicit.png";
       "scatter_c_api.png"]
  /\ (1 <= List.length rs)%nat
  /\ Forall (fun pr => snd pr = 0%Z) (removelast rs).
Proof.
  intro rs. subst rs.
  destruct (main lib std_sin std_rand w) as [code m] eqn:E.
  apply main_cases in E. cbn [fst snd].
  destruct E as [(r & rest & Hr & _ & Er & _)
              | [(r & rest & Hr & _ & Er & _)
              | [(r & rest & Hr & _ & Er & _)
              | (r & line & _ & Er & _)]]]; rewrite Er; cbn;
    (split; [ reflexivity | split; [ lia | repeat constructor ] ]).
Qed.

(** X12. What [main] reports.  The line "All plots created successfully!"
    is written exactly when the exit code is 0, so also after a failure of
    the fourth call; every line on the error stream is either
    "Plot error: Plot failed..." or "C API error: ...", never one of the
    argument errors of the wrapper; and exit code 1 comes with exactly one
    line on the error stream, the last one written. *)
Theorem main_reports (w : W) :
  let code := fst (main lib std_sin std_rand w) in
  let m := snd (main lib std_sin std_rand w) in
  (In (Cout (nl ++ "All plots created successfully!" ++ nl)) (console m)
   <-> code = 0%Z)
  /\ (forall text, In (Cerr text) (console m) ->
      (exists rest, text = "Plot error: Plot failed" ++ rest)
      \/ (exists rest, text = "C API error: " ++ rest))
  /\ (code = 1%Z ->
      exists text,
        last (console m) (Cout "") = Cerr text
        /\ filter is_Cerr (console m) = [Cerr text]).
Proof.
  intros code m. subst code m.
  destruct (main lib std_sin std_rand w) as [code m] eqn:E.
  apply main_cases in E. cbn [fst snd].
  destruct E as [(r & rest & Hr & -> & _ & Ec)
              | [(r & rest & Hr & -> & _ & Ec)
              | [(r & rest & Hr & -> & _ & Ec)
              | (r & line & -> & _ & Ec & Hok & Hko)]]]; rewrite Ec.
  - split; [ split; [ | discriminate ] | split ].
    + intros [H | []]. discriminate H.
    + intros text [H | []]. injection H as <-. left. eexists. reflexivity.
    + intros _. eexists. split; reflexivity.
  - split; [ split; [ | discriminate ] | split ].
    + intros [H | [H | []]]; discriminate H.
    + intros text [H | [H | []]]; [ discriminate H | ].
      injection H as <-. left. eexists. reflexivity.
    + intros _. eexists. split; reflexivity.
  - split; [ split; [ | discriminate ] | split ].
    + intros [H | [H | [H | []]]]; discriminate H.
    + intros text [H | [H | [H | []]]]; try discriminate H.
      injection H as <-. left. eexists. reflexivity.
    + intros _. eexists. split; reflexivity.
  - split; [ split; [ reflexivity | ] | split ].
    + intros _. do 4 right. now left.
    + intros text [H | [H | [H | [H | [H | []]]]]]; try discriminate H.
      destruct (Z.eq_dec r 0) as [Hz | Hnz].
      * rewrite (Hok Hz) in H. discriminate H.
      * destruct (Hko Hnz) as [t Ht]. rewrite Ht in H.
        injection H as <-. right. eexists. reflexivity.
    + discriminate.
Qed.

End MainRun.

(** ** Instances *)

Lemma scatterPng_call_arguments_witness :
  (exists p status,
     Ev_plot_scatter_png "out.png" [1; 2] [3; 4] 2%N
       (toCOptions default_ScatterOptions) 0%Z
     = Ev_plot_scatter_png p [1; 2] [3; 4]
         (N.of_nat (List.length [1; 2])) (toCOptions default_ScatterOptions)
         status)
  /\ List.length [1; 2] = List.length [3; 4]
  /\ (0 < List.length [1; 2])%nat.
Proof.
  apply (scatterPng_call_arguments (fixed_library 0%Z None) 0%nat "out.png"
           [1; 2] [3; 4] default_ScatterOptions
           (Ev_plot_scatter_png "out.png" [1; 2] [3; 4] 2%N
              (toCOptions default_ScatterOptions) 0%Z)).
  - left. reflexivity.
  - reflexivity.
Defined.

Lemma scatterPng_error_origin_witness :
  what (mkPlotError "Plot failed with unknown error") <> ""
  /\ ((exists rest,
         what (mkPlotError "Plot failed with unknown error")
         = "Plot failed" ++ rest)
      <-> render_calls
            (trace (run (fixed_library 7%Z None)
                      (scatterPng "out.png" [1; 2] [3; 4]
                         default_ScatterOptions) 0%nat)) = 1%nat).
Proof.
  apply (scatterPng_error_origin (fixed_library 7%Z None) 0%nat "out.png"
           [1; 2] [3; 4] default_ScatterOptions
           (mkPlotError "Plot failed with unknown error")).
  reflexivity.
Defined.

Lemma chained_bounds_last_writer_witness :
  (let o := chained ([SetSize 640%N 480%N] ++ SetXRange 0 1
                       :: [SetYRange 0 3; SetAutoRange true])
              default_ScatterOptions in
   xMin o = 0 /\ xMax o = 1
   /\ x_min (toCOptions o) = 0 /\ x_max (toCOptions o) = 1)
  /\ (let o := chained ([SetXRange 0 1] ++ SetYRange 0 3
                          :: [SetAutoRange true])
                 default_ScatterOptions in
      yMin o = 0 /\ yMax o = 3
      /\ y_min (toCOptions o) = 0 /\ y_max (toCOptions o) = 3).
Proof.
  split.
  - apply (proj1 (chained_bounds_last_writer [SetSize 640%N 480%N]
                    [SetYRange 0 3; SetAutoRange true] 0 1
                    default_ScatterOptions)).
    repeat constructor.
  - apply (proj2 (chained_bounds_last_writer [SetXRange 0 1]
                    [SetAutoRange true] 0 3 default_ScatterOptions)).
    repeat constructor.
Defined.
